(** * TestMesh plugin SDK for Python: the protocol server

    A shallow embedding of [plugins/sdk/python/testmesh_plugin.py] and the
    properties of its HTTP protocol: the four routes, the dispatch of
    [/execute], the shape of the responses and the capture of logs.

    Conventions of the embedding.
    - Python objects that travel over the protocol are the JSON values
      ([pyobj]); a Python [dict] is an association list in insertion order.
    - The handler methods are written in a small state-and-exception monad
      [M] over a [World]: the clock the process reads, the responses written
      on the connection and the armed exit timer.  A Python exception that
      nothing catches is the [Raised] outcome of the method.
    - [time.time()] yields a rational number of seconds; [int(...)] is
      truncation toward zero. *)

From Stdlib Require Import ZArith QArith Qround String Ascii List Bool Lia.
From Stdlib Require Import Permutation DecimalString.
Import ListNotations.
Open Scope string_scope.
Open Scope list_scope.
#[local] Set Warnings "-register-all".
#[local] Set Warnings "-notation-overridden".


(* ===================================================================== *)
(** ** Python values and dictionaries *)
(* ===================================================================== *)

(** A [dict] with string keys, in insertion order.  [dict_set] is
    [d[k] = v]: an existing key keeps its position and takes the new value,
    a new key goes to the end. *)
Definition dict (V : Type) : Type := list (string * V).

Fixpoint dict_get {V : Type} (d : dict V) (k : string) : option V :=
  match d with
  | [] => None
  | (k', v) :: rest => if k' =? k then Some v else dict_get rest k
  end.

Fixpoint dict_set {V : Type} (d : dict V) (k : string) (v : V) : dict V :=
  match d with
  | [] => [(k, v)]
  | (k', v') :: rest =>
      if k' =? k then (k', v) :: rest else (k', v') :: dict_set rest k v
  end.

Definition dict_keys {V : Type} (d : dict V) : list string := map fst d.

(** [d.get(k, default)] on a dictionary. *)
Definition dict_get_default {V : Type} (d : dict V) (k : string) (default : V) : V :=
  match dict_get d k with
  | Some v => v
  | None => default
  end.

(** The values [json.loads] produces and [json.dumps] accepts.  A float is
    kept as its [repr]: the server never computes with a float of a payload,
    it only tests its truth value and prints it.  The entries of a [PyDict]
    that Python builds have distinct keys; [dict_get] reads the first
    binding of a key. *)
Inductive pyobj : Type :=
| PyNone
| PyBool (b : bool)
| PyInt (n : Z)
| PyFloat (repr : string)
| PyStr (s : string)
| PyList (items : list pyobj)
| PyDict (entries : dict pyobj).

(** Truth value of an object, as [or] and [not] test it. *)
Definition truthy (v : pyobj) : bool :=
  match v with
  | PyNone => false
  | PyBool b => b
  | PyInt n => negb (n =? 0)%Z
  | PyFloat r => negb ((r =? "0.0") || (r =? "-0.0"))
  | PyStr s => negb (s =? "")
  | PyList items => match items with [] => false | _ => true end
  | PyDict entries => match entries with [] => false | _ => true end
  end.

(** [a or b]. *)
Definition py_or (a b : pyobj) : pyobj := if truthy a then a else b.

(** [str(v)] as an f-string interpolates it, for the objects that can be
    hashed; lists and dictionaries never reach the f-string of [do_POST]. *)
Definition py_str (v : pyobj) : option string :=
  match v with
  | PyNone => Some "None"
  | PyBool true => Some "True"
  | PyBool false => Some "False"
  | PyInt n => Some (NilZero.string_of_int (Z.to_int n))
  | PyFloat r => Some r
  | PyStr s => Some s
  | PyList _ | PyDict _ => None
  end.

(** [int(q)] on a real number: truncation toward zero. *)
Definition py_int (q : Q) : Z := Z.quot (Qnum q) (Zpos (Qden q)).

(* ===================================================================== *)
(** ** Responses, the world and the monad of the handler methods *)
(* ===================================================================== *)

(** What is written on the connection: the status line and the body.
    [JsonResponse] is what [send_json] writes, [ErrorPage] is the HTML page
    of [BaseHTTPRequestHandler.send_error]. *)
Inductive response : Type :=
| JsonResponse (status : Z) (data : pyobj)
| ErrorPage (status : Z).

Definition status_of (r : response) : Z :=
  match r with
  | JsonResponse status _ => status
  | ErrorPage status => status
  end.

(** A [datetime], observed through [isoformat()] only. *)
Definition datetime : Type := string.
Definition isoformat (d : datetime) : string := d.

Record World : Type := mkWorld {
  time_time : nat -> Q;            (* the successive readings of time.time() *)
  datetime_now : nat -> datetime;  (* the successive readings of datetime.now() *)
  tick : nat;                      (* how many readings were taken *)
  wfile : list response;           (* the responses written, oldest first *)
  exit_timer : bool                (* threading.Timer(0.1, os._exit) started *)
}.

(** Exceptions that leave a handler method. *)
Inductive exc : Type :=
| JSONDecodeError            (* json.loads on a body that is not JSON *)
| AttributeError             (* .get on an object that is not a dict *)
| TypeError                  (* unhashable key in a dict lookup *)
| KeyError (key : string)    (* d[key] on a missing key *)
| BaseExceptionExit.         (* SystemExit, KeyboardInterrupt: not an Exception *)

Inductive result (A : Type) : Type :=
| Returned (a : A)
| Raised (e : exc).
Arguments Returned {A} a.
Arguments Raised {A} e.

Definition M (A : Type) : Type := World -> result A * World.

Definition ret {A : Type} (a : A) : M A := fun w => (Returned a, w).

Definition raise {A : Type} (e : exc) : M A := fun w => (Raised e, w).

Definition bind {A B : Type} (m : M A) (f : A -> M B) : M B :=
  fun w =>
    match m w with
    | (Returned a, w') => f a w'
    | (Raised e, w') => (Raised e, w')
    end.

Notation "x <- c1 ;; c2" := (bind c1 (fun x => c2))
  (at level 61, c1 at next level, right associativity).
Notation "c1 ;; c2" := (bind c1 (fun _ => c2))
  (at level 61, right associativity).

Definition advance (w : World) : World :=
  mkWorld (time_time w) (datetime_now w) (S (tick w)) (wfile w) (exit_timer w).

Definition write (r : response) (w : World) : World :=
  mkWorld (time_time w) (datetime_now w) (tick w) (wfile w ++ [r]) (exit_timer w).

Definition arm (w : World) : World :=
  mkWorld (time_time w) (datetime_now w) (tick w) (wfile w) true.

(** [time.time()]. *)
Definition time_now : M Q := fun w => (Returned (time_time w (tick w)), advance w).

(** [datetime.now()]. *)
Definition datetime_read : M datetime :=
  fun w => (Returned (datetime_now w (tick w)), advance w).

(** [threading.Timer(0.1, lambda: os._exit(0)).start()]. *)
Definition start_exit_timer : M unit := fun w => (Returned tt, arm w).

(** [v.get(k, default)]: only a dict has the method. *)
Definition py_get (v : pyobj) (k : string) (default : pyobj) : M pyobj :=
  match v with
  | PyDict d => ret (dict_get_default d k default)
  | _ => raise AttributeError
  end.

(* ===================================================================== *)
(** ** PluginContext, LogEntry, Logger *)
(* ===================================================================== *)

Record PluginContext : Type := mkPluginContext {
  execution_id : pyobj;
  flow_id : pyobj;
  step_id : pyobj;
  variables : pyobj;
  step_outputs : pyobj
}.

Record LogEntry : Type := mkLogEntry {
  level : string;
  message : string;
  timestamp : datetime
}.

Definition to_dict (e : LogEntry) : pyobj :=
  PyDict [("level", PyStr (level e));
          ("message", PyStr (message e));
          ("timestamp", PyStr (isoformat (timestamp e)))].

(** [LogEntry(level, msg)]: the timestamp is read when the entry is made. *)
Definition LogEntry_init (lvl msg : string) : M LogEntry :=
  ts <- datetime_read ;;
  ret (mkLogEntry lvl msg ts).

Record Logger : Type := mkLogger { logs : list LogEntry }.

Definition Logger_init : Logger := mkLogger [].

Definition Logger_append (lg : Logger) (lvl msg : string) : M Logger :=
  e <- LogEntry_init lvl msg ;;
  ret (mkLogger (logs lg ++ [e])).

Definition Logger_debug (lg : Logger) (msg : string) : M Logger := Logger_append lg "debug" msg.
Definition Logger_info (lg : Logger) (msg : string) : M Logger := Logger_append lg "info" msg.
Definition Logger_warn (lg : Logger) (msg : string) : M Logger := Logger_append lg "warn" msg.
Definition Logger_error (lg : Logger) (msg : string) : M Logger := Logger_append lg "error" msg.

(* ===================================================================== *)
(** ** Action handlers *)
(* ===================================================================== *)

(** One call of a method of the logger. *)
Inductive log_call : Type :=
| debug (msg : string)
| info (msg : string)
| warn (msg : string)
| error (msg : string).

(** An exception object a handler raises: what [str(e)] gives and the
    [code] attribute, when it has one. *)
Record PyException : Type := mkPyException {
  exc_str : string;
  exc_code : option pyobj
}.

(** How an invocation ends. *)
Inductive completion : Type :=
| Return (result : pyobj)
| Raise (e : PyException)     (* an instance of Exception *)
| Exit.                       (* a BaseException outside Exception *)

(** What one invocation [handler(config, context, logger)] does: the calls
    it makes on the logger, in order, and how it ends. *)
Record behaviour : Type := mkBehaviour {
  calls : list log_call;
  finish : completion
}.

(** A handler is a Python function of [(config, context, logger)]; as an
    object it is true, so that [if not handler] of [do_POST] tests only
    whether the lookup found one. *)
Definition handler : Type := pyobj -> PluginContext -> behaviour.

Definition run_call (lg : Logger) (c : log_call) : M Logger :=
  match c with
  | debug msg => Logger_debug lg msg
  | info msg => Logger_info lg msg
  | warn msg => Logger_warn lg msg
  | error msg => Logger_error lg msg
  end.

Fixpoint run_calls (cs : list log_call) (lg : Logger) : M Logger :=
  match cs with
  | [] => ret lg
  | c :: rest => lg' <- run_call lg c ;; run_calls rest lg'
  end.

(* ===================================================================== *)
(** ** TestMeshPlugin *)
(* ===================================================================== *)

Record TestMeshPlugin : Type := mkPlugin {
  manifest : dict pyobj;
  handlers : dict handler;
  port : Z;
  start_time : Q
}.

(** [TestMeshPlugin(manifest)]; [plugin_port] is [PLUGIN_PORT] of the
    environment, already read as a number. *)
Definition TestMeshPlugin_init (manifest : dict pyobj) (plugin_port : Z) : M TestMeshPlugin :=
  now <- time_now ;;
  ret (mkPlugin manifest [] plugin_port now).

(** [@plugin.action(action_id)] applied to [func]. *)
Definition action (plugin : TestMeshPlugin) (action_id : string) (func : handler) : TestMeshPlugin :=
  mkPlugin (manifest plugin) (dict_set (handlers plugin) action_id func)
           (port plugin) (start_time plugin).

(** The registrations of a plugin's set-up, applied in order. *)
Definition register_all (plugin : TestMeshPlugin) (regs : list (string * handler)) : TestMeshPlugin :=
  fold_left (fun p r => action p (fst r) (snd r)) regs plugin.

(* ===================================================================== *)
(** ** PluginHandler *)
(* ===================================================================== *)

(** The body of a request as [do_POST] gets it from [json.loads]. *)
Inductive request_body : Type :=
| NotJson                   (* json.loads raises JSONDecodeError *)
| Json (parsed : pyobj).

Record http_request : Type := mkRequest {
  command : string;
  path : string;
  body : request_body
}.

(** [send_json]: the status line, the headers and the body
    [json.dumps(data)].  Every [pyobj] is a value [json.dumps] accepts, so
    the three writes are one step that returns. *)
Definition send_json (data : pyobj) (status : Z) : M unit :=
  fun w => (Returned tt, write (JsonResponse status data) w).

(** [send_error] of the base class. *)
Definition send_error (status : Z) : M unit :=
  fun w => (Returned tt, write (ErrorPage status) w).

Definition json_loads (b : request_body) : M pyobj :=
  match b with
  | NotJson => raise JSONDecodeError
  | Json parsed => ret parsed
  end.

(** [plugin.manifest[k]]. *)
Definition manifest_item (plugin : TestMeshPlugin) (k : string) : M pyobj :=
  match dict_get (manifest plugin) k with
  | Some v => ret v
  | None => raise (KeyError k)
  end.

Definition action_entry (aid : string) : pyobj :=
  PyDict [("id", PyStr aid); ("name", PyStr aid);
          ("description", PyStr ("Action: " ++ aid))].

Definition do_GET (plugin : TestMeshPlugin) (path : string) : M unit :=
  if path =? "/health" then
    now <- time_now ;;
    send_json (PyDict [
      ("status", PyStr "healthy");
      ("version", dict_get_default (manifest plugin) "version" (PyStr "1.0.0"));
      ("uptime_seconds", PyInt (py_int (now - start_time plugin)))]) 200
  else if path =? "/info" then
    id <- manifest_item plugin "id" ;;
    name <- manifest_item plugin "name" ;;
    send_json (PyDict [
      ("id", id);
      ("name", name);
      ("version", dict_get_default (manifest plugin) "version" (PyStr "1.0.0"));
      ("description", dict_get_default (manifest plugin) "description" (PyStr ""));
      ("actions", PyList (map action_entry (dict_keys (handlers plugin))))]) 200
  else
    send_json (PyDict [("error", PyStr "Not found")]) 404.

(** [plugin.handlers.get(action)]: the key is hashed first, and a key
    that is not a string equals no action id. *)
Definition handlers_get (plugin : TestMeshPlugin) (key : pyobj) : M (option handler) :=
  match key with
  | PyStr s => ret (dict_get (handlers plugin) s)
  | PyList _ | PyDict _ => raise TypeError
  | _ => ret None
  end.

Definition PluginContext_init (ctx_data : pyobj) : M PluginContext :=
  execution_id <- py_get ctx_data "execution_id" (PyStr "") ;;
  flow_id <- py_get ctx_data "flow_id" (PyStr "") ;;
  step_id <- py_get ctx_data "step_id" (PyStr "") ;;
  variables <- py_get ctx_data "variables" (PyDict []) ;;
  step_outputs <- py_get ctx_data "step_outputs" (PyDict []) ;;
  ret (mkPluginContext execution_id flow_id step_id variables step_outputs).

Definition error_code (e : PyException) : pyobj :=
  match exc_code e with
  | Some c => c
  | None => PyStr "EXECUTION_ERROR"
  end.

(** [int((time.time() - start_time) * 1000)], on exact readings: the
    results below use its sign only, which the rounding of floating-point
    arithmetic keeps. *)
Definition duration_ms (start_time now : Q) : Z := py_int ((now - start_time) * 1000).

Definition do_POST (plugin : TestMeshPlugin) (path : string) (body : request_body) : M unit :=
  if path =? "/execute" then
    request <- json_loads body ;;
    action <- py_get request "action" PyNone ;;
    config <- py_get request "config" (PyDict []) ;;
    ctx_data <- py_get request "context" (PyDict []) ;;
    context <- PluginContext_init ctx_data ;;
    handler <- handlers_get plugin action ;;
    match handler with
    | None =>
        match py_str action with
        | Some text =>
            send_json (PyDict [
              ("success", PyBool false);
              ("error", PyDict [
                 ("code", PyStr "UNKNOWN_ACTION");
                 ("message", PyStr ("Unknown action: " ++ text))])]) 200
        | None => raise TypeError
        end
    | Some handler =>
        start_time <- time_now ;;
        let run := handler config context in
        logger <- run_calls (calls run) Logger_init ;;
        match finish run with
        | Return result =>
            now <- time_now ;;
            send_json (PyDict [
              ("success", PyBool true);
              ("output", py_or result (PyDict []));
              ("logs", PyList (map to_dict (logs logger)));
              ("metrics", PyDict [
                 ("duration_ms", PyInt (duration_ms start_time now))])]) 200
        | Raise e =>
            now <- time_now ;;
            send_json (PyDict [
              ("success", PyBool false);
              ("error", PyDict [
                 ("code", error_code e);
                 ("message", PyStr (exc_str e))]);
              ("logs", PyList (map to_dict (logs logger)));
              ("metrics", PyDict [
                 ("duration_ms", PyInt (duration_ms start_time now))])]) 200
        | Exit => raise BaseExceptionExit
        end
    end
  else if path =? "/shutdown" then
    send_json (PyDict [("status", PyStr "shutting_down")]) 200 ;;
    start_exit_timer
  else
    send_json (PyDict [("error", PyStr "Not found")]) 404.

(** [BaseHTTPRequestHandler.handle_one_request] of the standard library:
    the method [do_<command>] of the handler class is called, and a command
    for which the class defines none is answered by [send_error] with 501.
    [PluginHandler] defines [do_GET] and [do_POST]. *)
Definition handle_one_request (plugin : TestMeshPlugin) (req : http_request) : M unit :=
  if command req =? "GET" then do_GET plugin (path req)
  else if command req =? "POST" then do_POST plugin (path req) (body req)
  else send_error 501.

(* ===================================================================== *)
(** ** Observations on a run of a method *)
(* ===================================================================== *)

(** The method returns, and [r] is what it wrote on the connection. *)
Definition responds (m : M unit) (w : World) (r : response) : Prop :=
  fst (m w) = Returned tt /\ wfile (snd (m w)) = wfile w ++ [r].

(** The method is left by the exception [e], and nothing was written. *)
Definition aborts (m : M unit) (w : World) (e : exc) : Prop :=
  fst (m w) = Raised e /\ wfile (snd (m w)) = wfile w.

(** [v[k]] on the body of a response. *)
Definition json_field (v : pyobj) (k : string) : option pyobj :=
  match v with
  | PyDict d => dict_get d k
  | _ => None
  end.

Definition get_request (path : string) : http_request := mkRequest "GET" path NotJson.

Definition post_execute (request : pyobj) : http_request :=
  mkRequest "POST" "/execute" (Json request).

(** The parts of a request object that [do_POST] reads. *)
Definition request_action (fields : dict pyobj) : pyobj :=
  dict_get_default fields "action" PyNone.

Definition request_config (fields : dict pyobj) : pyobj :=
  dict_get_default fields "config" (PyDict []).

Definition request_context (fields : dict pyobj) : pyobj :=
  dict_get_default fields "context" (PyDict []).

Definition context_of (ctx_data : dict pyobj) : PluginContext :=
  mkPluginContext
    (dict_get_default ctx_data "execution_id" (PyStr ""))
    (dict_get_default ctx_data "flow_id" (PyStr ""))
    (dict_get_default ctx_data "step_id" (PyStr ""))
    (dict_get_default ctx_data "variables" (PyDict []))
    (dict_get_default ctx_data "step_outputs" (PyDict [])).

(** The request object [fields] names a registered action, and [run] is
    what the invocation of its handler does. *)
Definition invokes (plugin : TestMeshPlugin) (fields : dict pyobj) (run : behaviour) : Prop :=
  exists (A : string) (h : handler) (ctx_data : dict pyobj),
    dict_get fields "action" = Some (PyStr A) /\
    request_context fields = PyDict ctx_data /\
    dict_get (handlers plugin) A = Some h /\
    h (request_config fields) (context_of ctx_data) = run.

Definition level_of (c : log_call) : string :=
  match c with
  | debug _ => "debug"
  | info _ => "info"
  | warn _ => "warn"
  | error _ => "error"
  end.

Definition message_of (c : log_call) : string :=
  match c with
  | debug msg | info msg | warn msg | error msg => msg
  end.

(** The entries the calls [cs] leave in a logger when the first of them
    takes reading [n] of the clock. *)
Fixpoint emitted (now : nat -> datetime) (cs : list log_call) (n : nat) : list LogEntry :=
  match cs with
  | [] => []
  | c :: rest => mkLogEntry (level_of c) (message_of c) (now n) :: emitted now rest (S n)
  end.

Fixpoint advance_by (n : nat) (w : World) : World :=
  match n with
  | O => w
  | S n' => advance_by n' (advance w)
  end.

(** A clock that never goes back. *)
Definition monotone_clock (w : World) : Prop :=
  forall i j : nat, (i <= j)%nat -> (time_time w i <= time_time w j)%Q.

(** [w2] is a state the process reaches from [w1]: the same clock, read
    at least as far. *)
Definition later (w1 w2 : World) : Prop :=
  time_time w2 = time_time w1 /\ (tick w1 <= tick w2)%nat.

(** The loop of [serve_forever] over the requests [reqs]: an exception that
    leaves a handler method ends that request, and the loop goes on. *)
Definition serve (plugin : TestMeshPlugin) (reqs : list http_request) (w : World) : World :=
  fold_left (fun w' req => snd (handle_one_request plugin req w')) reqs w.

(** The four routes of the protocol. *)
Definition routes : list (string * string) :=
  [("GET", "/health"); ("GET", "/info"); ("POST", "/execute"); ("POST", "/shutdown")].

Definition not_found : response :=
  JsonResponse 404 (PyDict [("error", PyStr "Not found")]).

Definition unknown_action (text : string) : response :=
  JsonResponse 200 (PyDict [
    ("success", PyBool false);
    ("error", PyDict [
       ("code", PyStr "UNKNOWN_ACTION");
       ("message", PyStr ("Unknown action: " ++ text))])]).

(** A plugin with two actions, used for the concrete runs below. *)
Module Demo.

Definition echo : handler :=
  fun config _ => mkBehaviour [info "echo called"] (Return config).

Definition validate : handler :=
  fun _ _ =>
    mkBehaviour [debug "checking input"; error "no field"]
                (Raise (mkPyException "missing field" (Some (PyStr "BAD_INPUT")))).

Definition plugin : TestMeshPlugin :=
  register_all
    (mkPlugin [("id", PyStr "demo"); ("name", PyStr "Demo")] [] 0 0)
    [("echo", echo); ("validate", validate)].

(** A clock that advances a quarter of a second at each reading. *)
Definition world : World :=
  mkWorld (fun n => Qmake (Z.of_nat n) 4)
          (fun n => NilZero.string_of_uint (Nat.to_uint n))
          0 [] false.

Definition echo_request : dict pyobj :=
  [("action", PyStr "echo"); ("config", PyDict [("n", PyInt 3)])].

Definition validate_request : dict pyobj :=
  [("action", PyStr "validate")].

Definition ghost_request : dict pyobj :=
  [("action", PyStr "ghost"); ("context", PyNone)].

End Demo.

(** The request is POST /shutdown. *)
Definition is_shutdown (req : http_request) : bool :=
  (command req =? "POST") && (path req =? "/shutdown").

(** The request is one of the four routes, tested as the methods test it. *)
Definition is_route (req : http_request) : bool :=
  ((command req =? "GET") && ((path req =? "/health") || (path req =? "/info"))) ||
  ((command req =? "POST") && ((path req =? "/execute") || (path req =? "/shutdown"))).

(** The status line a request is answered with, when it is answered. *)
Definition expected_status (req : http_request) : Z :=
  if is_route req then 200
  else if (command req =? "GET") || (command req =? "POST") then 404
  else 501.

(** The levels the logger writes. *)
Definition levels : list string := ["debug"; "info"; "warn"; "error"].

(** A plugin whose handlers end in the less usual ways. *)
Module Samples.

Definition zero : handler :=
  fun _ _ => mkBehaviour [] (Return (PyInt 0)).

Definition quit : handler :=
  fun _ _ => mkBehaviour [warn "stopping"] Exit.

Definition plugin : TestMeshPlugin :=
  register_all
    (mkPlugin [("id", PyStr "samples"); ("name", PyStr "Samples")] [] 0 0)
    [("zero", zero); ("quit", quit); ("5", Demo.echo)].

End Samples.

(** A computation that leaves the clock as it is and only reads it
    further. *)
Definition steady {A : Type} (m : M A) : Prop :=
  forall w : World, later w (snd (m w)).

(** Unfolds [do_POST] on an /execute request whose body is a JSON object
    [fields], up to the construction of the context. *)
Ltac open_execute fields :=
  unfold handle_one_request, post_execute, do_POST;
  cbn [command path body String.eqb Ascii.eqb Bool.eqb json_loads];
  cbv beta iota delta [bind ret py_get];
  change (dict_get_default fields "context" (PyDict [])) with (request_context fields);
  change (dict_get_default fields "config" (PyDict [])) with (request_config fields);
  change (dict_get_default fields "action" PyNone) with (request_action fields).

(* ===================================================================== *)
(** ** The logger *)
(* ===================================================================== *)

Lemma run_call_spec (lg : Logger) (c : log_call) (w : World) :
  run_call lg c w =
  (Returned (mkLogger (logs lg ++ [mkLogEntry (level_of c) (message_of c)
                                               (datetime_now w (tick w))])),
   advance w).
Proof. destruct c; reflexivity. Qed.

Lemma run_calls_spec (cs : list log_call) :
  forall (lg : Logger) (w : World),
    run_calls cs lg w =
    (Returned (mkLogger (logs lg ++ emitted (datetime_now w) cs (tick w))),
     advance_by (length cs) w).
Proof.
  induction cs as [| c rest IH]; intros lg w.
  - simpl. rewrite app_nil_r. destruct lg; reflexivity.
  - simpl run_calls. unfold bind. rewrite run_call_spec, IH.
    simpl. rewrite <- app_assoc. reflexivity.
Qed.

Lemma advance_by_fields (n : nat) :
  forall w : World,
    time_time (advance_by n w) = time_time w /\
    datetime_now (advance_by n w) = datetime_now w /\
    tick (advance_by n w) = (n + tick w)%nat /\
    wfile (advance_by n w) = wfile w /\
    exit_timer (advance_by n w) = exit_timer w.
Proof.
  induction n as [| n IH]; intro w; simpl.
  - repeat split.
  - destruct (IH (advance w)) as (Ht & Hd & Hk & Hw & He).
    simpl in *. repeat split; try assumption. lia.
Qed.

(* ===================================================================== *)
(** ** POST /execute: the invocation of a handler *)
(* ===================================================================== *)

Lemma PluginContext_init_dict (ctx_data : dict pyobj) (w : World) :
  PluginContext_init (PyDict ctx_data) w = (Returned (context_of ctx_data), w).
Proof. reflexivity. Qed.

(** What [do_POST] does up to the call of the handler, and after it. *)
Lemma execute_invocation
    (plugin : TestMeshPlugin) (fields : dict pyobj) (run : behaviour) (w : World) :
  invokes plugin fields run ->
  handle_one_request plugin (post_execute (PyDict fields)) w =
  let started := time_time w (tick w) in
  let entries := emitted (datetime_now w) (calls run) (S (tick w)) in
  let w' := advance_by (length (calls run)) (advance w) in
  let ms := duration_ms started (time_time w (tick w')) in
  match finish run with
  | Return result =>
      (Returned tt,
       write (JsonResponse 200 (PyDict [
         ("success", PyBool true);
         ("output", py_or result (PyDict []));
         ("logs", PyList (map to_dict entries));
         ("metrics", PyDict [("duration_ms", PyInt ms)])])) (advance w'))
  | Raise e =>
      (Returned tt,
       write (JsonResponse 200 (PyDict [
         ("success", PyBool false);
         ("error", PyDict [("code", error_code e); ("message", PyStr (exc_str e))]);
         ("logs", PyList (map to_dict entries));
         ("metrics", PyDict [("duration_ms", PyInt ms)])])) (advance w'))
  | Exit => (Raised BaseExceptionExit, w')
  end.
Proof.
  intros (A & h & ctx_data & Haction & Hctx & Hreg & Hrun).
  assert (Hact : dict_get_default fields "action" PyNone = PyStr A)
    by (unfold dict_get_default; now rewrite Haction).
  unfold handle_one_request, post_execute, do_POST.
  cbn [command path body String.eqb Ascii.eqb Bool.eqb json_loads].
  cbv beta iota delta [bind ret py_get].
  change (dict_get_default fields "context" (PyDict [])) with (request_context fields).
  change (dict_get_default fields "config" (PyDict [])) with (request_config fields).
  rewrite Hctx, PluginContext_init_dict, Hact.
  cbv beta iota delta [handlers_get ret]. rewrite Hreg, Hrun.
  cbv beta iota delta [time_now]. rewrite run_calls_spec.
  destruct (advance_by_fields (length (calls run)) (advance w)) as (Ht & Hd & Hk & Hw & He).
  destruct (finish run) as [result | e |]; cbv beta iota delta [send_json raise].
  - rewrite Ht. reflexivity.
  - rewrite Ht. reflexivity.
  - reflexivity.
Qed.

Lemma advance_by_wfile (n : nat) (w : World) : wfile (advance_by n w) = wfile w.
Proof. apply advance_by_fields. Qed.

(** What [do_POST] does when the lookup of the action finds no handler. *)
Lemma execute_not_found
    (plugin : TestMeshPlugin) (fields ctx_data : dict pyobj) (text : string) (w : World) :
  request_context fields = PyDict ctx_data ->
  handlers_get plugin (request_action fields) w = (Returned None, w) ->
  py_str (request_action fields) = Some text ->
  handle_one_request plugin (post_execute (PyDict fields)) w =
  (Returned tt, write (unknown_action text) w).
Proof.
  intros Hctx Hget Hstr.
  unfold handle_one_request, post_execute, do_POST.
  cbn [command path body String.eqb Ascii.eqb Bool.eqb json_loads].
  cbv beta iota delta [bind ret py_get].
  change (dict_get_default fields "context" (PyDict [])) with (request_context fields).
  change (dict_get_default fields "action" PyNone) with (request_action fields).
  rewrite Hctx, PluginContext_init_dict, Hget, Hstr. reflexivity.
Qed.

(* ---------------------------------------------------------------------- *)

(** C1.  For every registered action id whose handler returns without
    signalling a failure, the POST /execute request naming it is answered
    with [success: true] and with the handler's mapping [M] as [output];
    when the handler returns [None] the output is the empty mapping. *)
Theorem execute_success_output
    (plugin : TestMeshPlugin) (fields : dict pyobj) (run : behaviour)
    (result : pyobj) (w : World) :
  invokes plugin fields run ->
  finish run = Return result ->
  exists data : pyobj,
    responds (handle_one_request plugin (post_execute (PyDict fields))) w
             (JsonResponse 200 data) /\
    json_field data "success" = Some (PyBool true) /\
    (forall M : dict pyobj,
        result = PyDict M -> json_field data "output" = Some (PyDict M)) /\
    (result = PyNone -> json_field data "output" = Some (PyDict [])).
Proof.
  intros Hinv Hfin.
  pose proof (execute_invocation plugin fields run w Hinv) as Hrun.
  rewrite Hfin in Hrun. cbv zeta in Hrun.
  eexists. split; [| split; [| split]].
  - unfold responds. rewrite Hrun. simpl. split; [reflexivity |].
    now rewrite advance_by_wfile.
  - reflexivity.
  - intros M ->. simpl. now destruct M.
  - intros ->. reflexivity.
Qed.

Lemma execute_success_output_witness :
  invokes Demo.plugin Demo.echo_request (Demo.echo (PyDict [("n", PyInt 3)]) (context_of [])) /\
  exists data : pyobj,
    responds (handle_one_request Demo.plugin (post_execute (PyDict Demo.echo_request)))
             Demo.world (JsonResponse 200 data) /\
    json_field data "success" = Some (PyBool true) /\
    (forall M : dict pyobj,
        PyDict [("n", PyInt 3)] = PyDict M -> json_field data "output" = Some (PyDict M)) /\
    (PyDict [("n", PyInt 3)] = PyNone -> json_field data "output" = Some (PyDict [])).
Proof.
  assert (H : invokes Demo.plugin Demo.echo_request
                      (Demo.echo (PyDict [("n", PyInt 3)]) (context_of []))).
  { exists "echo", Demo.echo, []. repeat split; reflexivity. }
  split; [exact H |].
  apply (execute_success_output Demo.plugin Demo.echo_request _ _ Demo.world H).
  reflexivity.
Defined.







(* ---------------------------------------------------------------------- *)
(** ** POST /execute: requests that reach no handler *)

Lemma request_action_present (fields : dict pyobj) (v : pyobj) :
  dict_get fields "action" = Some v -> request_action fields = v.
Proof. intro H. unfold request_action, dict_get_default. now rewrite H. Qed.

Lemma request_action_absent (fields : dict pyobj) :
  dict_get fields "action" = None -> request_action fields = PyNone.
Proof. intro H. unfold request_action, dict_get_default. now rewrite H. Qed.

Lemma request_action_str (fields : dict pyobj) (s : string) :
  request_action fields = PyStr s -> dict_get fields "action" = Some (PyStr s).
Proof.
  unfold request_action, dict_get_default.
  destruct (dict_get fields "action") as [v |]; [now intros -> | discriminate].
Qed.

(** A context that is not an object stops [do_POST] before the lookup. *)
Lemma execute_bad_context (plugin : TestMeshPlugin) (fields : dict pyobj) (w : World) :
  (forall ctx_data : dict pyobj, request_context fields <> PyDict ctx_data) ->
  handle_one_request plugin (post_execute (PyDict fields)) w = (Raised AttributeError, w).
Proof.
  intro Hctx. open_execute fields.
  destruct (request_context fields) as [| b | n | r | s | items | ctx_data];
    try reflexivity.
  now destruct (Hctx ctx_data).
Qed.

(** An action that cannot be hashed stops [do_POST] at the lookup. *)
Lemma execute_unhashable
    (plugin : TestMeshPlugin) (fields ctx_data : dict pyobj) (w : World) :
  request_context fields = PyDict ctx_data ->
  py_str (request_action fields) = None ->
  handle_one_request plugin (post_execute (PyDict fields)) w = (Raised TypeError, w).
Proof.
  intros Hctx Hstr. open_execute fields.
  rewrite Hctx, PluginContext_init_dict.
  destruct (request_action fields) as [| [|] | n | r | s | items | entries];
    try discriminate Hstr; reflexivity.
Qed.

(** C3 as the specification states it fails: the request
    [{"action": "ghost", "context": null}] names an action that is not
    registered, and [do_POST] is left by an AttributeError before the
    lookup, with no response written. *)
Lemma unknown_action_null_context :
  dict_get Demo.ghost_request "action" = Some (PyStr "ghost") /\
  dict_get (handlers Demo.plugin) "ghost" = None /\
  aborts (handle_one_request Demo.plugin (post_execute (PyDict Demo.ghost_request)))
         Demo.world AttributeError /\
  ~ responds (handle_one_request Demo.plugin (post_execute (PyDict Demo.ghost_request)))
             Demo.world (unknown_action "ghost").
Proof.
  split; [reflexivity |]. split; [reflexivity |]. split.
  - split; reflexivity.
  - intros [H _]. discriminate H.
Qed.

(** C3, amended.  For every POST /execute request whose body is a JSON
    object with a [context] that is absent or an object, and that names an
    action id not present in the registry, the response is [success: false]
    with [error.code] ["UNKNOWN_ACTION"] and [error.message]
    ["Unknown action: <action>"], and it has no [logs] and no [metrics]. *)
Theorem unknown_action_response
    (plugin : TestMeshPlugin) (fields ctx_data : dict pyobj) (A : string) (w : World) :
  dict_get fields "action" = Some (PyStr A) ->
  request_context fields = PyDict ctx_data ->
  dict_get (handlers plugin) A = None ->
  exists data : pyobj,
    responds (handle_one_request plugin (post_execute (PyDict fields))) w
             (JsonResponse 200 data) /\
    data = PyDict [
      ("success", PyBool false);
      ("error", PyDict [
         ("code", PyStr "UNKNOWN_ACTION");
         ("message", PyStr ("Unknown action: " ++ A))])] /\
    json_field data "logs" = None /\
    json_field data "metrics" = None.
Proof.
  intros Haction Hctx Hreg.
  apply request_action_present in Haction.
  eexists. split; [| split; [reflexivity | split; reflexivity]].
  unfold responds.
  rewrite (execute_not_found plugin fields ctx_data A w Hctx).
  - split; reflexivity.
  - rewrite Haction. unfold handlers_get. now rewrite Hreg.
  - now rewrite Haction.
Qed.

Lemma unknown_action_response_witness :
  exists data : pyobj,
    responds (handle_one_request Demo.plugin
                (post_execute (PyDict [("action", PyStr "ghost")])))
             Demo.world (JsonResponse 200 data) /\
    data = PyDict [
      ("success", PyBool false);
      ("error", PyDict [
         ("code", PyStr "UNKNOWN_ACTION");
         ("message", PyStr "Unknown action: ghost")])] /\
    json_field data "logs" = None /\
    json_field data "metrics" = None.
Proof.
  apply (unknown_action_response Demo.plugin [("action", PyStr "ghost")] []
           "ghost" Demo.world); reflexivity.
Defined.

(** C10 as stated fails: the bodies [{"context": null}] and [[]] are valid
    JSON without an [action] field, and [do_POST] is left by an
    AttributeError on each of them, with no response written. *)
Lemma missing_action_not_answered :
  dict_get [("context", PyNone)] "action" = None /\
  aborts (handle_one_request Demo.plugin (post_execute (PyDict [("context", PyNone)])))
         Demo.world AttributeError /\
  aborts (handle_one_request Demo.plugin (post_execute (PyList [])))
         Demo.world AttributeError /\
  ~ responds (handle_one_request Demo.plugin (post_execute (PyDict [("context", PyNone)])))
             Demo.world (unknown_action "None").
Proof.
  split; [reflexivity |]. split; [split; reflexivity |].
  split; [split; reflexivity |].
  intros [H _]. discriminate H.
Qed.

(** C10, amended.  For every POST /execute request whose body is a JSON
    object that omits [action] and whose [context] is absent or an object,
    the method returns and the response is [success: false] with
    [error.code] ["UNKNOWN_ACTION"] and [error.message]
    ["Unknown action: None"]. *)
Theorem missing_action_response
    (plugin : TestMeshPlugin) (fields ctx_data : dict pyobj) (w : World) :
  dict_get fields "action" = None ->
  request_context fields = PyDict ctx_data ->
  responds (handle_one_request plugin (post_execute (PyDict fields))) w
    (JsonResponse 200 (PyDict [
       ("success", PyBool false);
       ("error", PyDict [
          ("code", PyStr "UNKNOWN_ACTION");
          ("message", PyStr "Unknown action: None")])])).
Proof.
  intros Haction Hctx.
  apply request_action_absent in Haction.
  unfold responds.
  rewrite (execute_not_found plugin fields ctx_data "None" w Hctx).
  - split; reflexivity.
  - now rewrite Haction.
  - now rewrite Haction.
Qed.

Lemma missing_action_response_witness :
  responds (handle_one_request Demo.plugin
              (post_execute (PyDict [("config", PyDict [])])))
    Demo.world
    (JsonResponse 200 (PyDict [
       ("success", PyBool false);
       ("error", PyDict [
          ("code", PyStr "UNKNOWN_ACTION");
          ("message", PyStr "Unknown action: None")])])).
Proof.
  apply (missing_action_response Demo.plugin [("config", PyDict [])] [] Demo.world);
    reflexivity.
Defined.

(** C2 as stated fails: on a body that is not JSON the JSONDecodeError of
    [json.loads] leaves [do_POST], and no response is written; the body
    [{}], which misses [action], is answered with status 200. *)
Lemma not_json_body_escapes :
  aborts (handle_one_request Demo.plugin (mkRequest "POST" "/execute" NotJson))
         Demo.world JSONDecodeError /\
  (forall r : response,
      ~ responds (handle_one_request Demo.plugin (mkRequest "POST" "/execute" NotJson))
                 Demo.world r) /\
  responds (handle_one_request Demo.plugin (post_execute (PyDict [])))
           Demo.world (unknown_action "None") /\
  status_of (unknown_action "None") = 200%Z.
Proof.
  split; [split; reflexivity |]. split.
  - intros r [H _]. discriminate H.
  - split; [split; reflexivity | reflexivity].
Qed.

(** C2, amended.  The source has no guard on the body of POST /execute: on
    a body that is not JSON the parse failure leaves [do_POST] as a
    JSONDecodeError and nothing is written; a JSON object that misses
    [action], with a [context] that is absent or an object, is dispatched
    with the absent value and answered with status 200 and the
    ["UNKNOWN_ACTION"] error. *)
Theorem malformed_body_behaviour (plugin : TestMeshPlugin) (w : World) :
  aborts (handle_one_request plugin (mkRequest "POST" "/execute" NotJson)) w
         JSONDecodeError /\
  forall fields ctx_data : dict pyobj,
    dict_get fields "action" = None ->
    request_context fields = PyDict ctx_data ->
    responds (handle_one_request plugin (post_execute (PyDict fields))) w
             (unknown_action "None").
Proof.
  split; [split; reflexivity |].
  intros fields ctx_data Haction Hctx.
  apply request_action_absent in Haction.
  unfold responds.
  rewrite (execute_not_found plugin fields ctx_data "None" w Hctx).
  - split; reflexivity.
  - now rewrite Haction.
  - now rewrite Haction.
Qed.

Lemma malformed_body_behaviour_witness :
  aborts (handle_one_request Demo.plugin (mkRequest "POST" "/execute" NotJson))
         Demo.world JSONDecodeError /\
  responds (handle_one_request Demo.plugin (post_execute (PyDict [])))
           Demo.world (unknown_action "None").
Proof.
  split.
  - apply (malformed_body_behaviour Demo.plugin Demo.world).
  - apply (proj2 (malformed_body_behaviour Demo.plugin Demo.world) [] []);
      reflexivity.
Defined.

Lemma advance_by_snoc (n : nat) :
  forall w : World, advance (advance_by n w) = advance_by n (advance w).
Proof.
  induction n as [| n IH]; intro w; simpl; [reflexivity | apply IH].
Qed.

(** The four ways a POST /execute request ends. *)
Lemma execute_cases (plugin : TestMeshPlugin) (b : request_body) (w : World) :
  let out := do_POST plugin "/execute" b w in
  (exists e : exc, out = (Raised e, w)) \/
  (exists text : string, out = (Returned tt, write (unknown_action text) w)) \/
  (exists (data : pyobj) (n : nat),
      out = (Returned tt, write (JsonResponse 200 data) (advance_by n w))) \/
  (exists n : nat, out = (Raised BaseExceptionExit, advance_by n w)).
Proof.
  cbv zeta.
  destruct b as [| parsed]; [left; eexists; reflexivity |].
  destruct parsed as [| b | n | r | s | items | fields];
    try (left; eexists; reflexivity).
  change (do_POST plugin "/execute" (Json (PyDict fields)) w)
    with (handle_one_request plugin (post_execute (PyDict fields)) w).
  destruct (request_context fields) as [| b | n | r | s | items | ctx_data] eqn:Hctx;
    try (left; eexists; apply execute_bad_context;
         intros cd; rewrite Hctx; discriminate).
  destruct (py_str (request_action fields)) as [text |] eqn:Hstr;
    [| left; eexists; exact (execute_unhashable plugin fields ctx_data w Hctx Hstr)].
  assert (Hmiss : handlers_get plugin (request_action fields) w = (Returned None, w) ->
                  exists text' : string,
                    handle_one_request plugin (post_execute (PyDict fields)) w =
                    (Returned tt, write (unknown_action text') w)).
  { intro Hget. exists text. now apply execute_not_found with ctx_data. }
  destruct (request_action fields) as [| b | n | r | s | items | entries] eqn:Hact;
    try (right; left; apply Hmiss; reflexivity); try discriminate Hstr.
  destruct (dict_get (handlers plugin) s) as [h |] eqn:Hreg.
  - assert (Hinv : invokes plugin fields (h (request_config fields) (context_of ctx_data))).
    { exists s, h, ctx_data. repeat split; auto using request_action_str. }
    rewrite (execute_invocation plugin fields _ w Hinv). cbv zeta.
    destruct (finish (h (request_config fields) (context_of ctx_data))) as [result | e |].
    + right; right; left. eexists. exists (S (S (length (calls (h (request_config fields) (context_of ctx_data)))))).
      rewrite advance_by_snoc. reflexivity.
    + right; right; left. eexists. exists (S (S (length (calls (h (request_config fields) (context_of ctx_data)))))).
      rewrite advance_by_snoc. reflexivity.
    + right; right; right. exists (S (length (calls (h (request_config fields) (context_of ctx_data))))).
      reflexivity.
  - right; left. apply Hmiss. unfold handlers_get. now rewrite Hreg.
Qed.

Lemma responds_inv (m : M unit) (w w' : World) (r0 r : response) :
  m w = (Returned tt, w') -> wfile w' = wfile w ++ [r0] ->
  responds m w r -> r = r0.
Proof.
  intros Hm Hw [_ Hr]. rewrite Hm in Hr. simpl in Hr. rewrite Hw in Hr.
  apply app_inv_head in Hr. now inversion Hr.
Qed.



(* ---------------------------------------------------------------------- *)
(** ** Routing *)

(** C6 as stated fails: PUT /health is none of the four routes, and it is
    answered by the base class with status 501 and an HTML page, not by the
    JSON not-found error with status 404. *)
Lemma put_health_is_not_404 :
  ~ In ("PUT", "/health") routes /\
  responds (handle_one_request Demo.plugin (mkRequest "PUT" "/health" NotJson))
           Demo.world (ErrorPage 501) /\
  ~ responds (handle_one_request Demo.plugin (mkRequest "PUT" "/health" NotJson))
             Demo.world not_found.
Proof.
  split; [| split].
  - simpl. intros [H | [H | [H | [H | []]]]]; discriminate H.
  - split; reflexivity.
  - intros [_ H]. discriminate H.
Qed.

(** C6, amended.  For every GET or POST request whose method and path are
    not one of the four routes, the method returns and the response is the
    JSON not-found error with status 404. *)
Theorem unknown_route_not_found
    (plugin : TestMeshPlugin) (req : http_request) (w : World) :
  command req = "GET" \/ command req = "POST" ->
  ~ In (command req, path req) routes ->
  responds (handle_one_request plugin req) w not_found.
Proof.
  destruct req as [c p b]. simpl. intros Hc Hroute.
  unfold handle_one_request, responds. simpl.
  destruct Hc as [-> | ->]; simpl.
  - unfold do_GET.
    destruct (String.eqb_spec p "/health") as [-> | _];
      [exfalso; apply Hroute; simpl; auto |].
    destruct (String.eqb_spec p "/info") as [-> | _];
      [exfalso; apply Hroute; simpl; auto |].
    split; reflexivity.
  - unfold do_POST.
    destruct (String.eqb_spec p "/execute") as [-> | _];
      [exfalso; apply Hroute; simpl; auto |].
    destruct (String.eqb_spec p "/shutdown") as [-> | _];
      [exfalso; apply Hroute; simpl; auto 6 |].
    split; reflexivity.
Qed.

Lemma unknown_route_not_found_witness :
  responds (handle_one_request Demo.plugin (mkRequest "POST" "/health" NotJson))
           Demo.world not_found.
Proof.
  apply (unknown_route_not_found Demo.plugin (mkRequest "POST" "/health" NotJson)
           Demo.world).
  - right. reflexivity.
  - simpl. intros [H | [H | [H | [H | []]]]]; discriminate H.
Defined.

(* ---------------------------------------------------------------------- *)
(** ** GET /info: the registry *)

Section Registry.

Context {V : Type}.

Lemma dict_set_keys_in (d : dict V) (k : string) (v : V) (k' : string) :
  In k' (dict_keys (dict_set d k v)) <-> k' = k \/ In k' (dict_keys d).
Proof.
  induction d as [| [k0 v0] rest IH]; simpl.
  - intuition.
  - destruct (String.eqb_spec k0 k) as [-> | Hne]; simpl.
    + intuition.
    + rewrite IH. intuition.
Qed.

Lemma dict_set_keys_nodup (d : dict V) (k : string) (v : V) :
  NoDup (dict_keys d) -> NoDup (dict_keys (dict_set d k v)).
Proof.
  induction d as [| [k0 v0] rest IH]; simpl; intro Hnd.
  - constructor; [intros [] | constructor].
  - inversion Hnd as [| ? ? Hnotin Hrest]; subst.
    destruct (String.eqb_spec k0 k) as [-> | Hne]; simpl.
    + constructor; assumption.
    + constructor; [| now apply IH].
      intro Hin. apply dict_set_keys_in in Hin.
      destruct Hin as [-> | Hin]; [now apply Hne | now apply Hnotin].
Qed.

End Registry.

Lemma register_all_manifest (regs : list (string * handler)) :
  forall plugin : TestMeshPlugin,
    manifest (register_all plugin regs) = manifest plugin.
Proof.
  unfold register_all.
  induction regs as [| [aid h] rest IH]; intro plugin; simpl; [reflexivity |].
  now rewrite IH.
Qed.

(** The keys of the registry after the registrations [regs]: no key twice,
    and exactly the keys there were and the ids registered. *)
Lemma register_all_keys (regs : list (string * handler)) :
  forall plugin : TestMeshPlugin,
    NoDup (dict_keys (handlers plugin)) ->
    NoDup (dict_keys (handlers (register_all plugin regs))) /\
    forall aid : string,
      In aid (dict_keys (handlers (register_all plugin regs))) <->
      In aid (dict_keys (handlers plugin)) \/ In aid (map fst regs).
Proof.
  induction regs as [| [aid0 h] rest IH]; intros plugin Hnd; simpl.
  - split; [assumption | intuition].
  - destruct (IH (action plugin aid0 h)) as [Hnd' Hin'].
    + simpl. now apply dict_set_keys_nodup.
    + split; [exact Hnd' |].
      intro aid. unfold register_all in Hin'. rewrite Hin'. simpl.
      rewrite dict_set_keys_in. intuition.
Qed.

(** C8.  For every registry, built by any sequence of registrations,
    GET /info (on a manifest that has its [id] and [name]) returns in
    [actions] one entry with [id], [name] and [description] per key of the
    registry; every registered action id is listed exactly once and no
    other id is listed, and registering in another order gives the same
    ids, up to their order. *)
Theorem info_lists_each_action_once
    (meta : dict pyobj) (plugin_port : Z) (started : Q)
    (regs : list (string * handler)) (id name : pyobj) (w : World) :
  dict_get meta "id" = Some id ->
  dict_get meta "name" = Some name ->
  let plugin_of := register_all (mkPlugin meta [] plugin_port started) in
  let listed := fun rs => dict_keys (handlers (plugin_of rs)) in
  exists data : pyobj,
    responds (handle_one_request (plugin_of regs) (get_request "/info")) w
             (JsonResponse 200 data) /\
    json_field data "actions" = Some (PyList (map action_entry (listed regs))) /\
    (forall aid : string,
        json_field (action_entry aid) "id" = Some (PyStr aid) /\
        json_field (action_entry aid) "name" = Some (PyStr aid) /\
        json_field (action_entry aid) "description" = Some (PyStr ("Action: " ++ aid))) /\
    (forall aid : string,
        In aid (map fst regs) -> count_occ string_dec (listed regs) aid = 1%nat) /\
    (forall aid : string,
        ~ In aid (map fst regs) -> count_occ string_dec (listed regs) aid = 0%nat) /\
    (forall regs' : list (string * handler),
        Permutation regs regs' -> Permutation (listed regs) (listed regs')).
Proof.
  intros Hid Hname plugin_of listed.
  assert (Hkeys : forall rs,
             NoDup (listed rs) /\
             forall aid, In aid (listed rs) <-> In aid (map fst rs)).
  { intro rs.
    destruct (register_all_keys rs (mkPlugin meta [] plugin_port started))
      as [Hnd Hin]; [constructor |].
    split; [exact Hnd |].
    intro aid. unfold listed, plugin_of. rewrite Hin. simpl. intuition. }
  destruct (Hkeys regs) as [Hnd Hin].
  eexists. split; [| split; [| split; [| split; [| split]]]].
  - assert (Hman : manifest (plugin_of regs) = meta)
      by apply register_all_manifest.
    unfold responds, handle_one_request, get_request, do_GET. simpl.
    unfold bind, manifest_item. rewrite Hman, Hid, Hname. simpl.
    split; reflexivity.
  - reflexivity.
  - intro aid. repeat split.
  - intros aid Hreg. apply NoDup_count_occ'; [exact Hnd | now apply Hin].
  - intros aid Hreg. apply count_occ_not_In. now rewrite Hin.
  - intros regs' Hperm. destruct (Hkeys regs') as [Hnd' Hin'].
    apply NoDup_Permutation; [exact Hnd | exact Hnd' |].
    intro aid. rewrite Hin, Hin'.
    split; apply Permutation_in; [| symmetry]; now apply Permutation_map.
Qed.

Lemma info_lists_each_action_once_witness :
  exists data : pyobj,
    responds (handle_one_request Demo.plugin (get_request "/info")) Demo.world
             (JsonResponse 200 data) /\
    json_field data "actions" =
      Some (PyList [action_entry "echo"; action_entry "validate"]).
Proof.
  destruct (info_lists_each_action_once
              [("id", PyStr "demo"); ("name", PyStr "Demo")] 0 0
              [("echo", Demo.echo); ("validate", Demo.validate)]
              (PyStr "demo") (PyStr "Demo") Demo.world eq_refl eq_refl)
    as (data & Hresp & Hactions & _).
  exists data. split; [exact Hresp | exact Hactions].
Defined.

(* ---------------------------------------------------------------------- *)
(** ** GET /health: the uptime *)

Lemma later_refl (w : World) : later w w.
Proof. split; [reflexivity | apply Nat.le_refl]. Qed.

Lemma later_trans (w1 w2 w3 : World) : later w1 w2 -> later w2 w3 -> later w1 w3.
Proof.
  intros [Ht12 Hk12] [Ht23 Hk23]. split.
  - now rewrite Ht23.
  - eapply Nat.le_trans; eassumption.
Qed.

Lemma later_advance (w : World) : later w (advance w).
Proof. split; [reflexivity | simpl; apply Nat.le_succ_diag_r]. Qed.

Section Steady.

Context {A B : Type}.

Lemma steady_ret (a : A) : steady (ret a).
Proof. intro w. apply later_refl. Qed.

Lemma steady_raise (e : exc) : steady (@raise A e).
Proof. intro w. apply later_refl. Qed.

Lemma steady_bind (m : M A) (f : A -> M B) :
  steady m -> (forall a : A, steady (f a)) -> steady (bind m f).
Proof.
  intros Hm Hf w. unfold bind.
  specialize (Hm w). destruct (m w) as [[a | e] w']; simpl in Hm.
  - apply later_trans with w'; [exact Hm | apply Hf].
  - exact Hm.
Qed.

End Steady.

Lemma steady_time_now : steady time_now.
Proof. intro w. apply later_advance. Qed.

Lemma steady_send_json (data : pyobj) (status : Z) : steady (send_json data status).
Proof. intro w. split; [reflexivity | apply Nat.le_refl]. Qed.

Lemma steady_send_error (status : Z) : steady (send_error status).
Proof. intro w. split; [reflexivity | apply Nat.le_refl]. Qed.

Lemma steady_start_exit_timer : steady start_exit_timer.
Proof. intro w. split; [reflexivity | apply Nat.le_refl]. Qed.

Lemma steady_py_get (v : pyobj) (k : string) (default : pyobj) :
  steady (py_get v k default).
Proof. destruct v; intro w; apply later_refl. Qed.

Lemma steady_run_calls (cs : list log_call) (lg : Logger) : steady (run_calls cs lg).
Proof.
  intro w. rewrite run_calls_spec. simpl.
  destruct (advance_by_fields (length cs) w) as (Ht & _ & Hk & _).
  split; [exact Ht | rewrite Hk; apply Nat.le_add_l].
Qed.

Create HintDb steady.
#[local] Hint Resolve steady_ret steady_raise steady_time_now steady_send_json
  steady_send_error steady_start_exit_timer steady_py_get steady_run_calls : steady.

(** Breaks a method into its steps, each of which is steady. *)
Ltac steady_steps :=
  repeat first
    [ solve [auto with steady]
    | apply steady_bind; [| intro]
    | match goal with
      | |- steady (match ?x with _ => _ end) => destruct x
      | |- steady (if ?b then _ else _) => destruct b
      end ].

Lemma steady_do_GET (plugin : TestMeshPlugin) (p : string) : steady (do_GET plugin p).
Proof. unfold do_GET, manifest_item. steady_steps. Qed.

Lemma steady_do_POST (plugin : TestMeshPlugin) (p : string) (b : request_body) :
  steady (do_POST plugin p b).
Proof.
  unfold do_POST, json_loads, PluginContext_init, handlers_get. steady_steps.
Qed.

Lemma steady_handle_one_request (plugin : TestMeshPlugin) (req : http_request) :
  steady (handle_one_request plugin req).
Proof.
  unfold handle_one_request.
  destruct (command req =? "GET"); [apply steady_do_GET |].
  destruct (command req =? "POST"); [apply steady_do_POST | apply steady_send_error].
Qed.

Lemma serve_later (plugin : TestMeshPlugin) (reqs : list http_request) :
  forall w : World, later w (serve plugin reqs w).
Proof.
  unfold serve.
  induction reqs as [| req rest IH]; intro w; simpl.
  - apply later_refl.
  - eapply later_trans; [apply steady_handle_one_request | apply IH].
Qed.

(** Truncation toward zero never reverses an order. *)
Lemma py_int_le (q1 q2 : Q) : (q1 <= q2)%Q -> (py_int q1 <= py_int q2)%Z.
Proof.
  destruct q1 as [n1 d1], q2 as [n2 d2]. unfold Qle, py_int. simpl. intro Hle.
  rewrite <- (Z.quot_mul_cancel_r n1 (Zpos d1) (Zpos d2)) by discriminate.
  rewrite <- (Z.quot_mul_cancel_r n2 (Zpos d2) (Zpos d1)) by discriminate.
  rewrite (Z.mul_comm (Zpos d2) (Zpos d1)).
  apply Z.quot_le_mono; [reflexivity | exact Hle].
Qed.

Lemma health_response (plugin : TestMeshPlugin) (w : World) :
  handle_one_request plugin (get_request "/health") w =
  (Returned tt,
   write (JsonResponse 200 (PyDict [
            ("status", PyStr "healthy");
            ("version", dict_get_default (manifest plugin) "version" (PyStr "1.0.0"));
            ("uptime_seconds",
             PyInt (py_int (time_time w (tick w) - start_time plugin)))]))
         (advance w)).
Proof. reflexivity. Qed.

(** C9.  Every GET /health request returns status ["healthy"], and of any
    two /health calls of one run of the server, with any requests served
    between them, the later reports an [uptime_seconds] that is not below
    the one of the earlier, when the clock never goes back. *)
Theorem health_uptime_monotone
    (plugin : TestMeshPlugin) (between : list http_request) (w : World) :
  monotone_clock w ->
  let health := handle_one_request plugin (get_request "/health") in
  let w1 := snd (health w) in
  let w2 := serve plugin between w1 in
  exists (version : pyobj) (u1 u2 : Z),
    responds health w
      (JsonResponse 200 (PyDict [("status", PyStr "healthy");
                                 ("version", version);
                                 ("uptime_seconds", PyInt u1)])) /\
    responds health w2
      (JsonResponse 200 (PyDict [("status", PyStr "healthy");
                                 ("version", version);
                                 ("uptime_seconds", PyInt u2)])) /\
    (u1 <= u2)%Z.
Proof.
  intros Hclock health w1 w2.
  assert (Hlater : later w w2).
  { apply later_trans with w1.
    - apply steady_handle_one_request.
    - apply serve_later. }
  destruct Hlater as [Htime Htick].
  eexists; eexists; eexists. split; [| split].
  - unfold responds, health. rewrite health_response. split; reflexivity.
  - unfold responds, health. rewrite health_response. split; reflexivity.
  - apply py_int_le. rewrite Htime.
    apply Qplus_le_compat; [| apply Qle_refl].
    apply Hclock. exact Htick.
Qed.

Lemma health_uptime_monotone_witness :
  exists (version : pyobj) (u1 u2 : Z),
    responds (handle_one_request Demo.plugin (get_request "/health")) Demo.world
      (JsonResponse 200 (PyDict [("status", PyStr "healthy");
                                 ("version", version);
                                 ("uptime_seconds", PyInt u1)])) /\
    responds (handle_one_request Demo.plugin (get_request "/health"))
      (serve Demo.plugin
         [post_execute (PyDict Demo.echo_request); get_request "/info";
          post_execute (PyDict Demo.validate_request)]
         (snd (handle_one_request Demo.plugin (get_request "/health") Demo.world)))
      (JsonResponse 200 (PyDict [("status", PyStr "healthy");
                                 ("version", version);
                                 ("uptime_seconds", PyInt u2)])) /\
    (u1 <= u2)%Z.
Proof.
  apply (health_uptime_monotone Demo.plugin
           [post_execute (PyDict Demo.echo_request); get_request "/info";
            post_execute (PyDict Demo.validate_request)] Demo.world).
  intros i j Hij. unfold Qle. simpl. lia.
Defined.

(* ===================================================================== *)
(** ** Every request: what is written, and the exit timer *)
(* ===================================================================== *)

Lemma advance_by_exit_timer (n : nat) (w : World) :
  exit_timer (advance_by n w) = exit_timer w.
Proof. apply advance_by_fields. Qed.

(** The ways any request ends: an exception and nothing written, one
    response with the status of its route, or, for POST /shutdown, the
    acknowledgement and the timer. *)
Lemma request_cases (plugin : TestMeshPlugin) (req : http_request) (w : World) :
  let out := handle_one_request plugin req w in
  (exists (e : exc) (n : nat),
      out = (Raised e, advance_by n w) /\ is_shutdown req = false) \/
  (exists (r : response) (n : nat),
      out = (Returned tt, write r (advance_by n w)) /\
      status_of r = expected_status req /\ is_shutdown req = false) \/
  (exists r : response,
      out = (Returned tt, arm (write r w)) /\
      status_of r = expected_status req /\ is_shutdown req = true).
Proof.
  destruct req as [c p b].
  unfold handle_one_request, is_shutdown, expected_status, is_route.
  cbn [command path body].
  destruct (String.eqb_spec c "GET") as [-> | HnG].
  - cbn [andb orb]. unfold do_GET.
    destruct (String.eqb_spec p "/health") as [-> | Hnh].
    + right; left. eexists; exists 1%nat. repeat split.
    + destruct (String.eqb_spec p "/info") as [-> | Hni].
      * unfold bind, manifest_item.
        destruct (dict_get (manifest plugin) "id") as [id |];
          [| left; eexists; exists 0%nat; repeat split].
        destruct (dict_get (manifest plugin) "name") as [name |];
          [| left; eexists; exists 0%nat; repeat split].
        right; left. eexists; exists 0%nat. repeat split.
      * right; left. eexists; exists 0%nat. repeat split.
  - destruct (String.eqb_spec c "POST") as [-> | HnP].
    + cbn [andb orb].
      destruct (String.eqb_spec p "/execute") as [-> | Hne].
      * cbn [andb orb].
        destruct (execute_cases plugin b w)
          as [(e & ->) | [(text & ->) | [(data & n & ->) | (n & ->)]]].
        -- left. exists e, 0%nat. repeat split.
        -- right; left. eexists; exists 0%nat. repeat split.
        -- right; left. eexists; exists n. repeat split.
        -- left. eexists; exists n. repeat split.
      * unfold do_POST. rewrite (proj2 (String.eqb_neq p "/execute") Hne).
        destruct (String.eqb_spec p "/shutdown") as [-> | Hns].
        -- right; right. eexists. repeat split.
        -- right; left. eexists; exists 0%nat. repeat split.
    + cbn [andb orb]. right; left. eexists; exists 0%nat. repeat split.
Qed.

Lemma is_route_spec (req : http_request) :
  is_route req = true <-> In (command req, path req) routes.
Proof.
  destruct req as [c p b]. unfold is_route, routes. cbn [command path In].
  split.
  - intro H. apply orb_prop in H. destruct H as [H | H];
      apply andb_prop in H; destruct H as [Hc Hp];
      apply String.eqb_eq in Hc; subst c;
      apply orb_prop in Hp; destruct Hp as [Hp | Hp];
      apply String.eqb_eq in Hp; subst p; auto 6.
  - intros [H | [H | [H | [H | []]]]]; inversion H; reflexivity.
Qed.

(** X2.  The status of a response follows from the route alone: 200 on
    each of the four routes, whatever the action did, 404 on any other
    GET or POST, and the 501 page of the base class on any other method. *)
Theorem status_by_route
    (plugin : TestMeshPlugin) (req : http_request) (w : World) (r : response) :
  responds (handle_one_request plugin req) w r ->
  (In (command req, path req) routes -> status_of r = 200%Z) /\
  (~ In (command req, path req) routes ->
   command req = "GET" \/ command req = "POST" -> status_of r = 404%Z) /\
  (command req <> "GET" -> command req <> "POST" -> r = ErrorPage 501).
Proof.
  intro Hresp.
  assert (Hstatus : status_of r = expected_status req).
  { destruct (request_cases plugin req w)
      as [(e & n & Hout & _) | [(r0 & n & Hout & Hs & _) | (r0 & Hout & Hs & _)]].
    - destruct Hresp as [Hfst _]. rewrite Hout in Hfst. discriminate Hfst.
    - rewrite (responds_inv _ w _ r0 r Hout); [exact Hs | | exact Hresp].
      simpl. now rewrite advance_by_wfile.
    - rewrite (responds_inv _ w _ r0 r Hout); [exact Hs | reflexivity | exact Hresp]. }
  unfold expected_status in Hstatus.
  split; [| split].
  - intro Hin. apply is_route_spec in Hin. now rewrite Hin in Hstatus.
  - intros Hnot [Hc | Hc].
    + destruct (is_route req) eqn:Hroute;
        [now apply is_route_spec in Hroute |].
      rewrite Hc in Hstatus. exact Hstatus.
    + destruct (is_route req) eqn:Hroute;
        [now apply is_route_spec in Hroute |].
      rewrite Hc in Hstatus. exact Hstatus.
  - intros HnG HnP.
    destruct Hresp as [_ Hw]. revert Hw.
    unfold handle_one_request.
    rewrite (proj2 (String.eqb_neq _ _) HnG), (proj2 (String.eqb_neq _ _) HnP).
    simpl. intro Hw. apply app_inv_head in Hw. now inversion Hw.
Qed.

Lemma status_by_route_witness :
  responds (handle_one_request Demo.plugin
              (post_execute (PyDict [("action", PyStr "ghost")])))
           Demo.world (unknown_action "ghost") /\
  status_of (unknown_action "ghost") = 200%Z.
Proof.
  assert (H : responds (handle_one_request Demo.plugin
                          (post_execute (PyDict [("action", PyStr "ghost")])))
                       Demo.world (unknown_action "ghost"))
    by (split; reflexivity).
  split; [exact H |].
  apply (status_by_route Demo.plugin
           (post_execute (PyDict [("action", PyStr "ghost")])) Demo.world
           (unknown_action "ghost") H).
  simpl. auto.
Defined.

(** X3.  The exit timer is started by POST /shutdown and by nothing else:
    after any request it is running exactly when it was running before or
    the request was POST /shutdown. *)
Theorem exit_timer_only_by_shutdown
    (plugin : TestMeshPlugin) (req : http_request) (w : World) :
  exit_timer (snd (handle_one_request plugin req w)) =
  exit_timer w || ((command req =? "POST") && (path req =? "/shutdown")).
Proof.
  fold (is_shutdown req).
  destruct (request_cases plugin req w)
    as [(e & n & -> & ->) | [(r & n & -> & _ & ->) | (r & -> & _ & ->)]]; simpl.
  - rewrite advance_by_exit_timer. now rewrite orb_false_r.
  - rewrite advance_by_exit_timer. now rewrite orb_false_r.
  - now rewrite orb_true_r.
Qed.

(** X5.  GET /info needs the [id] and the [name] of the manifest: when
    [id] is missing the method is left by KeyError 'id', when only [name]
    is missing by KeyError 'name', in both cases with nothing written;
    otherwise it answers, with ["1.0.0"] and [""] standing in for a missing
    [version] and [description]. *)
Theorem info_needs_id_and_name (plugin : TestMeshPlugin) (w : World) :
  let info := handle_one_request plugin (get_request "/info") in
  match dict_get (manifest plugin) "id", dict_get (manifest plugin) "name" with
  | None, _ => aborts info w (KeyError "id")
  | Some _, None => aborts info w (KeyError "name")
  | Some id, Some name =>
      responds info w
        (JsonResponse 200 (PyDict [
           ("id", id);
           ("name", name);
           ("version", match dict_get (manifest plugin) "version" with
                       | Some v => v
                       | None => PyStr "1.0.0"
                       end);
           ("description", match dict_get (manifest plugin) "description" with
                           | Some d => d
                           | None => PyStr ""
                           end);
           ("actions", PyList (map action_entry (dict_keys (handlers plugin))))]))
  end.
Proof.
  cbv zeta.
  unfold aborts, responds, handle_one_request, get_request, do_GET.
  cbn [command path body String.eqb Ascii.eqb Bool.eqb].
  unfold bind, manifest_item.
  destruct (dict_get (manifest plugin) "id") as [id |];
    [| split; reflexivity].
  destruct (dict_get (manifest plugin) "name") as [name |];
    split; reflexivity.
Qed.

(* ===================================================================== *)
(** ** The registry: registering and looking up *)
(* ===================================================================== *)

Lemma dict_get_set {V : Type} (d : dict V) (k : string) (v : V) (k' : string) :
  dict_get (dict_set d k v) k' = if k =? k' then Some v else dict_get d k'.
Proof.
  induction d as [| [k0 v0] rest IH]; simpl.
  - reflexivity.
  - destruct (String.eqb_spec k0 k) as [-> | Hne]; simpl.
    + destruct (k =? k'); reflexivity.
    + rewrite IH. destruct (String.eqb_spec k0 k') as [-> | Hne'].
      * now rewrite (proj2 (String.eqb_neq k k')) by congruence.
      * reflexivity.
Qed.

Lemma register_all_other (regs : list (string * handler)) (a : string) :
  forall plugin : TestMeshPlugin,
    ~ In a (map fst regs) ->
    dict_get (handlers (register_all plugin regs)) a = dict_get (handlers plugin) a.
Proof.
  unfold register_all.
  induction regs as [| [a0 h0] rest IH]; intros plugin Hnot; simpl.
  - reflexivity.
  - rewrite IH by (intro Hin; apply Hnot; right; exact Hin).
    simpl. rewrite dict_get_set.
    destruct (String.eqb_spec a0 a) as [-> | _]; [| reflexivity].
    exfalso. apply Hnot. left. reflexivity.
Qed.

(** X6.  Registering is last-write-wins: after any sequence of
    registrations, the handler found under an id is the one of the last
    registration of that id, and an id that was not registered is found as
    it was before. *)
Theorem last_registration_wins
    (plugin : TestMeshPlugin) (before after : list (string * handler))
    (a : string) (h : handler) :
  ~ In a (map fst after) ->
  dict_get (handlers (register_all plugin (before ++ (a, h) :: after))) a = Some h.
Proof.
  intro Hnot.
  unfold register_all. rewrite fold_left_app. simpl.
  fold (register_all plugin before).
  fold (register_all (action (register_all plugin before) a h) after).
  rewrite register_all_other by exact Hnot.
  simpl. rewrite dict_get_set. now rewrite String.eqb_refl.
Qed.

Lemma last_registration_wins_witness :
  dict_get (handlers (register_all Demo.plugin
                        ([("echo", Demo.validate)] ++
                         ("echo", Samples.zero) :: [("validate", Demo.echo)])))
           "echo" = Some Samples.zero.
Proof.
  apply (last_registration_wins Demo.plugin [("echo", Demo.validate)]
           [("validate", Demo.echo)] "echo" Samples.zero).
  simpl. intros [H | []]. discriminate H.
Defined.

(** X7.  Registering an id that is already in the registry leaves the
    order of the registry, which is the order of the [actions] of
    GET /info, as it is; a new id goes to the end. *)
Theorem registration_keeps_position
    (plugin : TestMeshPlugin) (a : string) (h : handler) :
  dict_keys (handlers (action plugin a h)) =
  if in_dec string_dec a (dict_keys (handlers plugin))
  then dict_keys (handlers plugin)
  else dict_keys (handlers plugin) ++ [a].
Proof.
  simpl. generalize (handlers plugin). intro d.
  induction d as [| [k0 v0] rest IH]; simpl.
  - reflexivity.
  - destruct (String.eqb_spec k0 a) as [Heq | Hne]; simpl.
    + destruct (string_dec k0 a) as [_ | Hneq]; [reflexivity | now destruct Hneq].
    + rewrite IH.
      destruct (string_dec k0 a) as [Heq | Hne']; [now destruct Hne |].
      destruct (in_dec string_dec a (dict_keys rest)); reflexivity.
Qed.

(* ===================================================================== *)
(** ** POST /execute: the edges of the dispatch *)
(* ===================================================================== *)

(** X8.  A POST /execute request is answered only if its body is a JSON
    object, its [context] is absent or an object, its [action] is not a
    list or an object, and the handler found for it, if any, does not end
    in an exception outside [Exception]. *)
Theorem execute_answered_only_if
    (plugin : TestMeshPlugin) (b : request_body) (w : World) :
  fst (handle_one_request plugin (mkRequest "POST" "/execute" b) w) = Returned tt ->
  exists fields ctx_data : dict pyobj,
    b = Json (PyDict fields) /\
    request_context fields = PyDict ctx_data /\
    match request_action fields with
    | PyList _ | PyDict _ => False
    | PyStr s =>
        match dict_get (handlers plugin) s with
        | Some h => finish (h (request_config fields) (context_of ctx_data)) <> Exit
        | None => True
        end
    | _ => True
    end.
Proof.
  destruct b as [| parsed]; [discriminate |].
  destruct parsed as [| v | n | r | s | items | fields]; try discriminate.
  change (mkRequest "POST" "/execute" (Json (PyDict fields)))
    with (post_execute (PyDict fields)).
  destruct (request_context fields) as [| v | n | r | s | items | ctx_data] eqn:Hctx;
    try (rewrite execute_bad_context;
         [discriminate | intros cd; rewrite Hctx; discriminate]).
  intro Hret. exists fields, ctx_data. split; [reflexivity | split; [exact Hctx |]].
  destruct (request_action fields) as [| v | n | r | s | items | entries] eqn:Hact;
    try exact I;
    try (rewrite (execute_unhashable plugin fields ctx_data w Hctx) in Hret;
         [discriminate Hret | now rewrite Hact]).
  destruct (dict_get (handlers plugin) s) as [h |] eqn:Hreg; [| exact I].
  intro Hexit.
  assert (Hinv : invokes plugin fields (h (request_config fields) (context_of ctx_data))).
  { exists s, h, ctx_data. repeat split; auto using request_action_str. }
  rewrite (execute_invocation plugin fields _ w Hinv) in Hret. cbv zeta in Hret.
  rewrite Hexit in Hret. discriminate Hret.
Qed.

Lemma execute_answered_only_if_witness :
  exists fields ctx_data : dict pyobj,
    Json (PyDict Demo.validate_request) = Json (PyDict fields) /\
    request_context fields = PyDict ctx_data /\
    match request_action fields with
    | PyList _ | PyDict _ => False
    | PyStr s =>
        match dict_get (handlers Demo.plugin) s with
        | Some h => finish (h (request_config fields) (context_of ctx_data)) <> Exit
        | None => True
        end
    | _ => True
    end.
Proof.
  apply (execute_answered_only_if Demo.plugin (Json (PyDict Demo.validate_request))
           Demo.world).
  reflexivity.
Defined.

(** X9.  The shape of the request is not checked, it fails where it is
    used: a JSON body that is not an object, or a [context] that is not an
    object, leaves [do_POST] by an AttributeError, and an [action] that is
    a list or an object leaves it by a TypeError at the lookup; in each
    case nothing is written. *)
Theorem request_shape_errors (plugin : TestMeshPlugin) (w : World) :
  (forall parsed : pyobj,
      (forall fields : dict pyobj, parsed <> PyDict fields) ->
      aborts (handle_one_request plugin (post_execute parsed)) w AttributeError) /\
  (forall fields : dict pyobj,
      (forall ctx_data : dict pyobj, request_context fields <> PyDict ctx_data) ->
      aborts (handle_one_request plugin (post_execute (PyDict fields))) w
             AttributeError) /\
  (forall fields ctx_data : dict pyobj,
      request_context fields = PyDict ctx_data ->
      (exists items, request_action fields = PyList items) \/
      (exists entries, request_action fields = PyDict entries) ->
      aborts (handle_one_request plugin (post_execute (PyDict fields))) w TypeError).
Proof.
  split; [| split].
  - intros parsed Hshape.
    destruct parsed as [| v | n | r | s | items | fields];
      try (split; reflexivity).
    now destruct (Hshape fields).
  - intros fields Hshape. unfold aborts.
    rewrite execute_bad_context by exact Hshape. split; reflexivity.
  - intros fields ctx_data Hctx Hact. unfold aborts.
    rewrite (execute_unhashable plugin fields ctx_data w Hctx).
    + split; reflexivity.
    + destruct Hact as [(items & ->) | (entries & ->)]; reflexivity.
Qed.

Lemma request_shape_errors_witness :
  aborts (handle_one_request Demo.plugin (post_execute (PyStr "echo")))
         Demo.world AttributeError /\
  aborts (handle_one_request Demo.plugin
            (post_execute (PyDict [("action", PyStr "echo"); ("context", PyInt 7)])))
         Demo.world AttributeError /\
  aborts (handle_one_request Demo.plugin
            (post_execute (PyDict [("action", PyList [PyStr "echo"])])))
         Demo.world TypeError.
Proof.
  destruct (request_shape_errors Demo.plugin Demo.world) as (Hbody & Hctx & Hact).
  split; [| split].
  - apply Hbody. discriminate.
  - apply Hctx. discriminate.
  - apply (Hact _ []); [reflexivity |].
    left. exists [PyStr "echo"]. reflexivity.
Defined.

(** X10.  A handler that ends in an exception outside [Exception]
    (SystemExit, KeyboardInterrupt) is not caught by [except Exception]:
    the exception leaves [do_POST] and no response is written, the log
    entries of the invocation included. *)
Theorem handler_exit_escapes
    (plugin : TestMeshPlugin) (fields : dict pyobj) (run : behaviour) (w : World) :
  invokes plugin fields run ->
  finish run = Exit ->
  aborts (handle_one_request plugin (post_execute (PyDict fields))) w
         BaseExceptionExit.
Proof.
  intros Hinv Hfin. unfold aborts.
  rewrite (execute_invocation plugin fields run w Hinv). cbv zeta.
  rewrite Hfin. simpl. split; [reflexivity | now rewrite advance_by_wfile].
Qed.

Lemma handler_exit_escapes_witness :
  aborts (handle_one_request Samples.plugin
            (post_execute (PyDict [("action", PyStr "quit")])))
         Demo.world BaseExceptionExit.
Proof.
  apply (handler_exit_escapes Samples.plugin [("action", PyStr "quit")]
           (Samples.quit (PyDict []) (context_of [])) Demo.world).
  - exists "quit", Samples.quit, []. repeat split; reflexivity.
  - reflexivity.
Defined.

(** X11.  An [action] that is not a string (null, a boolean, a number)
    finds no handler, whatever ids are registered: the answer is the
    UNKNOWN_ACTION error with the value printed as Python prints it. *)
Theorem non_string_action_is_unknown
    (plugin : TestMeshPlugin) (fields ctx_data : dict pyobj) (text : string)
    (w : World) :
  request_context fields = PyDict ctx_data ->
  (forall s : string, request_action fields <> PyStr s) ->
  py_str (request_action fields) = Some text ->
  responds (handle_one_request plugin (post_execute (PyDict fields))) w
           (unknown_action text).
Proof.
  intros Hctx Hnot Hstr. unfold responds.
  rewrite (execute_not_found plugin fields ctx_data text w Hctx).
  - split; reflexivity.
  - destruct (request_action fields) as [| v | n | r | s | items | entries];
      try reflexivity; try discriminate Hstr.
    now destruct (Hnot s).
  - exact Hstr.
Qed.

Lemma non_string_action_is_unknown_witness :
  dict_get (handlers Samples.plugin) "5" = Some Demo.echo /\
  responds (handle_one_request Samples.plugin
              (post_execute (PyDict [("action", PyInt 5)])))
           Demo.world (unknown_action "5").
Proof.
  split; [reflexivity |].
  apply (non_string_action_is_unknown Samples.plugin [("action", PyInt 5)] []
           "5" Demo.world).
  - reflexivity.
  - discriminate.
  - reflexivity.
Defined.

(** X12.  The [output] of a success is [result or {}]: each of the JSON
    values that Python takes for false (None, False, 0, 0.0 and -0.0, the
    empty string, the empty list, the empty mapping) is replaced by the
    empty mapping, and every other JSON value (True, a number that is not
    zero, a string, list or mapping that is not empty) is passed on as it
    is. *)
Theorem falsy_result_becomes_empty_mapping
    (plugin : TestMeshPlugin) (fields : dict pyobj) (run : behaviour)
    (result : pyobj) (w : World) :
  invokes plugin fields run ->
  finish run = Return result ->
  exists data : pyobj,
    responds (handle_one_request plugin (post_execute (PyDict fields))) w
             (JsonResponse 200 data) /\
    (In result [PyNone; PyBool false; PyInt 0; PyFloat "0.0"; PyFloat "-0.0";
                PyStr ""; PyList []; PyDict []] ->
     json_field data "output" = Some (PyDict [])) /\
    (match result with
     | PyNone => False
     | PyBool b => b = true
     | PyInt n => n <> 0%Z
     | PyFloat r => r <> "0.0" /\ r <> "-0.0"
     | PyStr s => s <> ""
     | PyList items => items <> []
     | PyDict entries => entries <> []
     end ->
     json_field data "output" = Some result).
Proof.
  intros Hinv Hfin.
  pose proof (execute_invocation plugin fields run w Hinv) as Hrun.
  rewrite Hfin in Hrun. cbv zeta in Hrun.
  eexists. split; [| split].
  - unfold responds. rewrite Hrun. simpl. split; [reflexivity |].
    now rewrite advance_by_wfile.
  - simpl.
    intros [<- | [<- | [<- | [<- | [<- | [<- | [<- | [<- | []]]]]]]]]; reflexivity.
  - simpl. unfold py_or.
    destruct result as [| [|] | n | r | s | items | entries]; simpl.
    + contradiction.
    + reflexivity.
    + discriminate.
    + intro Hn. apply Z.eqb_neq in Hn. now rewrite Hn.
    + intros [H0 Hm]. apply String.eqb_neq in H0, Hm. now rewrite H0, Hm.
    + intro Hs. apply String.eqb_neq in Hs. now rewrite Hs.
    + destruct items; [now intros [] | reflexivity].
    + destruct entries; [now intros [] | reflexivity].
Qed.

Lemma falsy_result_becomes_empty_mapping_witness :
  exists data : pyobj,
    responds (handle_one_request Samples.plugin
                (post_execute (PyDict [("action", PyStr "zero")])))
             Demo.world (JsonResponse 200 data) /\
    json_field data "output" = Some (PyDict []).
Proof.
  destruct (falsy_result_becomes_empty_mapping Samples.plugin
              [("action", PyStr "zero")]
              (Samples.zero (PyDict []) (context_of [])) (PyInt 0) Demo.world)
    as (data & Hresp & Hfalsy & _).
  - exists "zero", Samples.zero, []. repeat split; reflexivity.
  - reflexivity.
  - exists data. split; [exact Hresp |].
    apply Hfalsy. simpl. auto.
Defined.

(** X13.  [do_POST] reads three fields of the request object and no
    other: two request objects with the same [action], [config] and
    [context], each taken with its default when absent, are handled alike,
    so that an absent [config] or [context] is an empty object and any
    further field is ignored. *)
Theorem execute_reads_three_fields
    (plugin : TestMeshPlugin) (fields1 fields2 : dict pyobj) (w : World) :
  request_action fields1 = request_action fields2 ->
  request_config fields1 = request_config fields2 ->
  request_context fields1 = request_context fields2 ->
  handle_one_request plugin (post_execute (PyDict fields1)) w =
  handle_one_request plugin (post_execute (PyDict fields2)) w.
Proof.
  intros Haction Hconfig Hcontext.
  open_execute fields1.
  change (dict_get_default fields2 "context" (PyDict [])) with (request_context fields2).
  change (dict_get_default fields2 "config" (PyDict [])) with (request_config fields2).
  change (dict_get_default fields2 "action" PyNone) with (request_action fields2).
  now rewrite Haction, Hconfig, Hcontext.
Qed.

Lemma execute_reads_three_fields_witness :
  handle_one_request Demo.plugin
    (post_execute (PyDict [("action", PyStr "echo")])) Demo.world =
  handle_one_request Demo.plugin
    (post_execute (PyDict [("trace", PyBool true); ("context", PyDict []);
                           ("action", PyStr "echo"); ("config", PyDict [])]))
    Demo.world.
Proof.
  apply (execute_reads_three_fields Demo.plugin
           [("action", PyStr "echo")]
           [("trace", PyBool true); ("context", PyDict []);
            ("action", PyStr "echo"); ("config", PyDict [])] Demo.world);
    reflexivity.
Defined.

(* ===================================================================== *)
(** ** Timing and the logger *)
(* ===================================================================== *)

(** The metric of an answered invocation, from the reading taken before
    the call and the one taken after it. *)
Lemma execute_metrics
    (plugin : TestMeshPlugin) (fields : dict pyobj) (run : behaviour) (w : World) :
  invokes plugin fields run ->
  finish run <> Exit ->
  exists data : pyobj,
    responds (handle_one_request plugin (post_execute (PyDict fields))) w
             (JsonResponse 200 data) /\
    json_field data "metrics" =
      Some (PyDict [("duration_ms",
                     PyInt (duration_ms (time_time w (tick w))
                              (time_time w (S (length (calls run) + tick w)))))]).
Proof.
  intros Hinv Hfin.
  pose proof (execute_invocation plugin fields run w Hinv) as Hrun.
  cbv zeta in Hrun. unfold responds. rewrite Hrun.
  destruct (advance_by_fields (length (calls run)) (advance w)) as (_ & _ & Hk & Hw & _).
  rewrite Hk. simpl tick. rewrite Nat.add_succ_r.
  destruct (finish run) as [result | e |]; [| | contradiction];
    (eexists; split; [simpl; split; [reflexivity | now rewrite Hw] | reflexivity]).
Qed.

(** X14.  With a clock that never goes back, the [duration_ms] of an
    answered invocation, success or failure, is never negative. *)
Theorem duration_ms_nonnegative
    (plugin : TestMeshPlugin) (fields : dict pyobj) (run : behaviour) (w : World) :
  invokes plugin fields run ->
  finish run <> Exit ->
  monotone_clock w ->
  exists (data : pyobj) (ms : Z),
    responds (handle_one_request plugin (post_execute (PyDict fields))) w
             (JsonResponse 200 data) /\
    json_field data "metrics" = Some (PyDict [("duration_ms", PyInt ms)]) /\
    (0 <= ms)%Z.
Proof.
  intros Hinv Hfin Hclock.
  destruct (execute_metrics plugin fields run w Hinv Hfin) as (data & Hresp & Hms).
  exists data; eexists. split; [exact Hresp | split; [exact Hms |]].
  unfold duration_ms.
  change 0%Z with (py_int 0). apply py_int_le.
  apply Qmult_le_0_compat; [| discriminate].
  apply -> Qle_minus_iff. apply Hclock. lia.
Qed.

Lemma duration_ms_nonnegative_witness :
  exists (data : pyobj) (ms : Z),
    responds (handle_one_request Demo.plugin (post_execute (PyDict Demo.validate_request)))
             Demo.world (JsonResponse 200 data) /\
    json_field data "metrics" = Some (PyDict [("duration_ms", PyInt ms)]) /\
    (0 <= ms)%Z.
Proof.
  apply (duration_ms_nonnegative Demo.plugin Demo.validate_request
           (Demo.validate (PyDict []) (context_of [])) Demo.world).
  - exists "validate", Demo.validate, []. repeat split; reflexivity.
  - discriminate.
  - intros i j Hij. unfold Qle. simpl. lia.
Defined.

Lemma register_all_start_time (regs : list (string * handler)) :
  forall plugin : TestMeshPlugin,
    start_time (register_all plugin regs) = start_time plugin.
Proof.
  unfold register_all.
  induction regs as [| [aid h] rest IH]; intro plugin; simpl; [reflexivity |].
  now rewrite IH.
Qed.

(** X16.  A plugin takes its start time when it is constructed: with a
    clock that never goes back, every GET /health served by it, after any
    registrations and any requests, reports an [uptime_seconds] that is
    not negative. *)
Theorem uptime_nonnegative
    (meta : dict pyobj) (plugin_port : Z) (w0 w1 : World)
    (plugin : TestMeshPlugin) (regs : list (string * handler))
    (earlier : list http_request) :
  TestMeshPlugin_init meta plugin_port w0 = (Returned plugin, w1) ->
  monotone_clock w0 ->
  let serving := register_all plugin regs in
  exists (version : pyobj) (uptime : Z),
    responds (handle_one_request serving (get_request "/health"))
             (serve serving earlier w1)
      (JsonResponse 200 (PyDict [("status", PyStr "healthy");
                                 ("version", version);
                                 ("uptime_seconds", PyInt uptime)])) /\
    (0 <= uptime)%Z.
Proof.
  intros Hinit Hclock serving.
  unfold TestMeshPlugin_init, bind, time_now, ret in Hinit.
  inversion Hinit as [[Hplugin Hw1]]. clear Hinit. subst w1 serving.
  destruct (serve_later (register_all plugin regs) earlier (advance w0))
    as [Htime Htick].
  eexists; eexists. split.
  - unfold responds. rewrite health_response. split; reflexivity.
  - change 0%Z with (py_int 0). apply py_int_le.
    rewrite Htime, register_all_start_time, <- Hplugin. simpl.
    apply -> Qle_minus_iff. apply Hclock.
    rewrite Hplugin. simpl in Htick. lia.
Qed.

Lemma uptime_nonnegative_witness :
  exists (version : pyobj) (uptime : Z),
    responds (handle_one_request
                (register_all (mkPlugin [] [] 0 (0 # 4)) [("echo", Demo.echo)])
                (get_request "/health"))
             (serve (register_all (mkPlugin [] [] 0 (0 # 4)) [("echo", Demo.echo)])
                    [post_execute (PyDict Demo.echo_request)] (advance Demo.world))
      (JsonResponse 200 (PyDict [("status", PyStr "healthy");
                                 ("version", version);
                                 ("uptime_seconds", PyInt uptime)])) /\
    (0 <= uptime)%Z.
Proof.
  apply (uptime_nonnegative [] 0 Demo.world (advance Demo.world)
           (mkPlugin [] [] 0 (0 # 4)) [("echo", Demo.echo)]
           [post_execute (PyDict Demo.echo_request)]).
  - reflexivity.
  - intros i j Hij. unfold Qle. simpl. lia.
Defined.

(** X17.  The logger is append-only: whatever its methods are called
    with, the entries it held stay in place and one entry per call is
    added after them, with one of the four levels and with the reading of
    the clock taken at that call; nothing is written on the connection. *)
Theorem logger_append_only (cs : list log_call) (lg : Logger) (w : World) :
  exists (added : list LogEntry) (w' : World),
    run_calls cs lg w = (Returned (mkLogger (logs lg ++ added)), w') /\
    length added = length cs /\
    Forall (fun e => In (level e) levels) added /\
    map message added = map message_of cs /\
    map timestamp added = map (datetime_now w) (seq (tick w) (length cs)) /\
    wfile w' = wfile w.
Proof.
  exists (emitted (datetime_now w) cs (tick w)), (advance_by (length cs) w).
  split; [apply run_calls_spec |].
  split; [| split; [| split; [| split; [| apply advance_by_wfile]]]];
    generalize (tick w); induction cs as [| c rest IH]; intro n; simpl;
    try reflexivity; try (now rewrite IH).
  - constructor.
  - constructor; [| apply IH].
    destruct c; simpl; auto.
Qed.
